(** * intercom-go: the conversation service (conversation.go)

    A shallow embedding of [ConversationService] and of the request
    builders it exposes, together with the properties of the payloads and
    query parameters that it hands to its [ConversationRepository].

    Naming.  Go resolves [Reply] the struct, [Reply] the method and
    [x.Type] the field by their receiver; here a member [m] of a Go type
    [T] is written [T_m] ([Reply_AdminID], [ConversationService_Reply],
    [ReplyType_String], ...). *)

From Stdlib Require Import String List ZArith Bool.
Import ListNotations.
Local Open Scope string_scope.

(** ** Values shared by every declaration *)

(** Go's [error] interface value: [None] is [nil], [Some msg] an error. *)
Definition error : Type := option string.

(** A Go pointer [*T]: [None] is the nil pointer. *)
Definition ptr (T : Type) : Type := option T.

(** [Bool(b)] returns a pointer to a copy of [b].
    Modelled from the spec: the helper [Bool] is declared outside
    conversation.go; the spec reads [Bool(true)] as "sets Open=true". *)
Definition Bool (b : bool) : ptr bool := Some b.

(** [MessageAddress]: the four fields that [reply] reads from the resolved
    address ([addr.Type], [addr.ID], [addr.UserID], [addr.Email]). *)
Record MessageAddress : Type := {
  MessageAddress_Type : string;
  MessageAddress_ID : string;
  MessageAddress_Email : string;
  MessageAddress_UserID : string
}.

(** [Reply], the outbound payload: the nine fields that [reply] and
    [Assign] assign.  A nil slice and an empty slice are both []. *)
Record Reply : Type := {
  Reply_Type : string;
  Reply_ReplyType : string;
  Reply_Body : string;
  Reply_AssigneeID : string;
  Reply_AdminID : string;
  Reply_IntercomID : string;
  Reply_Email : string;
  Reply_UserID : string;
  Reply_AttachmentURLs : list string
}.

(** Field assignments [reply.F = v] of [reply]. *)
Definition Reply_set_AdminID (v : string) (r : Reply) : Reply :=
  {| Reply_Type := Reply_Type r; Reply_ReplyType := Reply_ReplyType r;
     Reply_Body := Reply_Body r; Reply_AssigneeID := Reply_AssigneeID r;
     Reply_AdminID := v; Reply_IntercomID := Reply_IntercomID r;
     Reply_Email := Reply_Email r; Reply_UserID := Reply_UserID r;
     Reply_AttachmentURLs := Reply_AttachmentURLs r |}.

Definition Reply_set_IntercomID (v : string) (r : Reply) : Reply :=
  {| Reply_Type := Reply_Type r; Reply_ReplyType := Reply_ReplyType r;
     Reply_Body := Reply_Body r; Reply_AssigneeID := Reply_AssigneeID r;
     Reply_AdminID := Reply_AdminID r; Reply_IntercomID := v;
     Reply_Email := Reply_Email r; Reply_UserID := Reply_UserID r;
     Reply_AttachmentURLs := Reply_AttachmentURLs r |}.

Definition Reply_set_UserID (v : string) (r : Reply) : Reply :=
  {| Reply_Type := Reply_Type r; Reply_ReplyType := Reply_ReplyType r;
     Reply_Body := Reply_Body r; Reply_AssigneeID := Reply_AssigneeID r;
     Reply_AdminID := Reply_AdminID r; Reply_IntercomID := Reply_IntercomID r;
     Reply_Email := Reply_Email r; Reply_UserID := v;
     Reply_AttachmentURLs := Reply_AttachmentURLs r |}.

Definition Reply_set_Email (v : string) (r : Reply) : Reply :=
  {| Reply_Type := Reply_Type r; Reply_ReplyType := Reply_ReplyType r;
     Reply_Body := Reply_Body r; Reply_AssigneeID := Reply_AssigneeID r;
     Reply_AdminID := Reply_AdminID r; Reply_IntercomID := Reply_IntercomID r;
     Reply_Email := v; Reply_UserID := Reply_UserID r;
     Reply_AttachmentURLs := Reply_AttachmentURLs r |}.

(** [User]: the three identifier fields that [ListByUser] reads.
    Modelled from the spec: the struct is declared outside conversation.go;
    the spec names an internal ID, an external user ID and an email. *)
Record User : Type := {
  User_ID : string;
  User_UserID : string;
  User_Email : string
}.

(** The [MessagePerson] interface: anything with a [MessageAddress()]
    method.  The call yields [None] when it panics, which is what happens
    when the interface holds a nil pointer. *)
Class MessagePerson (A : Type) : Type :=
  MessagePerson_MessageAddress : A -> option MessageAddress.

(** The method set of [*T] contains the methods of [T]; calling one
    through a nil pointer panics. *)
#[export] Instance ptr_MessagePerson {A : Type} `{MessagePerson A}
  : MessagePerson (ptr A) :=
  fun p => match p with
           | Some a => MessagePerson_MessageAddress a
           | None => None
           end.

(** ** Declarations that live outside conversation.go

    conversation.go is compiled against types and constants of the package
    that other files declare.  The service only carries values of
    [PageParams] and [TagList] around, only calls [MessageAddress()] on an
    [Admin], and only calls [String()] on a [ReplyType]; they are kept
    abstract, so that every property below holds whatever their
    declarations are. *)
Class Declarations : Type := {
  PageParams : Type;
  TagList : Type;
  Admin : Type;
  Admin_MessageAddress : Admin -> MessageAddress;
  ReplyType : Type;
  ReplyType_String : ReplyType -> string;
  CONVERSATION_ASSIGN : ReplyType;
  CONVERSATION_OPEN : ReplyType;
  CONVERSATION_CLOSE : ReplyType
}.

#[export] Instance Admin_MessagePerson `{Declarations} : MessagePerson Admin :=
  fun a => Some (Admin_MessageAddress a).

(** The state of Conversations to query: [type ConversationListState int]. *)
Definition ConversationListState : Type := Z.
Definition SHOW_ALL : ConversationListState := 0%Z.
Definition SHOW_OPEN : ConversationListState := 1%Z.
Definition SHOW_CLOSED : ConversationListState := 2%Z.
Definition SHOW_UNREAD : ConversationListState := 3%Z.

Record Customer : Type := {
  Customer_Type : string;
  Customer_ID : string
}.

Record Teammate : Type := {
  Teammate_Type : string;
  Teammate_ID : string
}.

Record ConversationRating : Type := {
  ConversationRating_Rating : Z;
  ConversationRating_Remark : string;
  ConversationRating_CreatedAt : Z;
  ConversationRating_Customer : Customer;
  ConversationRating_Teammate : Teammate
}.

Record Attachment : Type := {
  Attachment_Name : string;
  Attachment_URL : string
}.

Record ConversationMessage : Type := {
  ConversationMessage_Subject : string;
  ConversationMessage_Body : string;
  ConversationMessage_Author : MessageAddress;
  ConversationMessage_URL : string;
  ConversationMessage_Attachments : list Attachment
}.

Section Model.
Context `{Declarations}.

Record ConversationPart : Type := {
  ConversationPart_ID : string;
  ConversationPart_PartType : string;
  ConversationPart_Body : string;
  ConversationPart_CreatedAt : Z;
  ConversationPart_UpdatedAt : Z;
  ConversationPart_NotifiedAt : Z;
  ConversationPart_AssignedTo : Admin;
  ConversationPart_Author : MessageAddress;
  ConversationPart_Attachments : list Attachment
}.

Record ConversationPartList : Type := {
  ConversationPartList_Parts : list ConversationPart
}.

Record Conversation : Type := {
  Conversation_ID : string;
  Conversation_CreatedAt : Z;
  Conversation_UpdatedAt : Z;
  Conversation_User : User;
  Conversation_Assignee : Admin;
  Conversation_Open : bool;
  Conversation_Read : bool;
  Conversation_ConversationMessage : ConversationMessage;
  Conversation_ConversationParts : ConversationPartList;
  Conversation_TagList : ptr TagList;
  Conversation_ConversationRating : ConversationRating
}.

Record ConversationList : Type := {
  ConversationList_Pages : PageParams;
  ConversationList_Conversations : list Conversation
}.

Record conversationListParams : Type := {
  conversationListParams_PageParams : PageParams;
  conversationListParams_Type : string;
  conversationListParams_AdminID : string;
  conversationListParams_IntercomUserID : string;
  conversationListParams_UserID : string;
  conversationListParams_Email : string;
  conversationListParams_Open : ptr bool;
  conversationListParams_Unread : ptr bool;
  conversationListParams_DisplayAs : string;
  conversationListParams_Order : string;
  conversationListParams_Sort : string;
  conversationListParams_State : string
}.

(** Field assignments [params.F = v] of the list operations. *)
Definition conversationListParams_set_Open (v : ptr bool)
    (p : conversationListParams) : conversationListParams :=
  {| conversationListParams_PageParams := conversationListParams_PageParams p;
     conversationListParams_Type := conversationListParams_Type p;
     conversationListParams_AdminID := conversationListParams_AdminID p;
     conversationListParams_IntercomUserID := conversationListParams_IntercomUserID p;
     conversationListParams_UserID := conversationListParams_UserID p;
     conversationListParams_Email := conversationListParams_Email p;
     conversationListParams_Open := v;
     conversationListParams_Unread := conversationListParams_Unread p;
     conversationListParams_DisplayAs := conversationListParams_DisplayAs p;
     conversationListParams_Order := conversationListParams_Order p;
     conversationListParams_Sort := conversationListParams_Sort p;
     conversationListParams_State := conversationListParams_State p |}.

Definition conversationListParams_set_State (v : string)
    (p : conversationListParams) : conversationListParams :=
  {| conversationListParams_PageParams := conversationListParams_PageParams p;
     conversationListParams_Type := conversationListParams_Type p;
     conversationListParams_AdminID := conversationListParams_AdminID p;
     conversationListParams_IntercomUserID := conversationListParams_IntercomUserID p;
     conversationListParams_UserID := conversationListParams_UserID p;
     conversationListParams_Email := conversationListParams_Email p;
     conversationListParams_Open := conversationListParams_Open p;
     conversationListParams_Unread := conversationListParams_Unread p;
     conversationListParams_DisplayAs := conversationListParams_DisplayAs p;
     conversationListParams_Order := conversationListParams_Order p;
     conversationListParams_Sort := conversationListParams_Sort p;
     conversationListParams_State := v |}.

Definition conversationListParams_set_Unread (v : ptr bool)
    (p : conversationListParams) : conversationListParams :=
  {| conversationListParams_PageParams := conversationListParams_PageParams p;
     conversationListParams_Type := conversationListParams_Type p;
     conversationListParams_AdminID := conversationListParams_AdminID p;
     conversationListParams_IntercomUserID := conversationListParams_IntercomUserID p;
     conversationListParams_UserID := conversationListParams_UserID p;
     conversationListParams_Email := conversationListParams_Email p;
     conversationListParams_Open := conversationListParams_Open p;
     conversationListParams_Unread := v;
     conversationListParams_DisplayAs := conversationListParams_DisplayAs p;
     conversationListParams_Order := conversationListParams_Order p;
     conversationListParams_Sort := conversationListParams_Sort p;
     conversationListParams_State := conversationListParams_State p |}.

(** ** Effects

    [World] is everything the repository talks to (transport, remote
    service); the package never looks into it.  A computation takes the
    world, and either panics ([None]) or returns a value and the world
    it leaves behind. *)
Variable World : Type.

Definition M (A : Type) : Type := World -> option (A * World).

Definition ret {A : Type} (a : A) : M A := fun w => Some (a, w).

Definition bind {A B : Type} (m : M A) (k : A -> M B) : M B :=
  fun w => match m w with
           | Some (a, w') => k a w'
           | None => None
           end.

Definition panic {A : Type} : M A := fun _ => None.

(** A method call or dereference that panics on nil. *)
Definition orPanic {A : Type} (o : option A) : M A :=
  match o with
  | Some a => ret a
  | None => panic
  end.

(** The [ConversationRepository] interface.  [reply] takes [*Reply]; the
    service never reads the payload back, so it is passed by value. *)
Record ConversationRepository : Type := {
  ConversationRepository_list : conversationListParams -> M (ConversationList * error);
  ConversationRepository_find : string -> M (Conversation * error);
  ConversationRepository_read : string -> M (Conversation * error);
  ConversationRepository_reply : string -> Reply -> M (Conversation * error)
}.

(** [ConversationService]; the receiver and its [Repository] are taken
    to be non-nil, as the client constructor sets them. *)
Record ConversationService : Type := {
  ConversationService_Repository : ConversationRepository
}.
End Model.

Arguments ret {_ _} a.
Arguments bind {_ _ _} m k.
Arguments panic {_ _}.
Arguments orPanic {_ _} o.
Arguments ConversationRepository_list {_ _} _ _.
Arguments ConversationRepository_find {_ _} _ _.
Arguments ConversationRepository_read {_ _} _ _.
Arguments ConversationRepository_reply {_ _} _ _ _.
Arguments ConversationService_Repository {_ _} _.

Notation "x <- m ;; k" := (bind m (fun x => k))
  (at level 61, m at next level, right associativity).

(** ** The service (conversation.go, lines 94-192) *)

Section Service.
Context `{Declarations} {World : Type}.

(** List all Conversations *)
Definition ConversationService_ListAll (c : ConversationService World)
    (pageParams : PageParams) : M World (ConversationList * error) :=
  ConversationRepository_list (ConversationService_Repository c)
    {| conversationListParams_PageParams := pageParams;
       conversationListParams_Type := "";
       conversationListParams_AdminID := "";
       conversationListParams_IntercomUserID := "";
       conversationListParams_UserID := "";
       conversationListParams_Email := "";
       conversationListParams_Open := None;
       conversationListParams_Unread := None;
       conversationListParams_DisplayAs := "";
       conversationListParams_Order := "";
       conversationListParams_Sort := "";
       conversationListParams_State := "" |}.

(** List Conversations by Admin *)
Definition ConversationService_ListByAdmin (c : ConversationService World)
    (adminID orderBy sort : string) (state : ConversationListState)
    (pageParams : PageParams) : M World (ConversationList * error) :=
  let params :=
    {| conversationListParams_PageParams := pageParams;
       conversationListParams_Type := "admin";
       conversationListParams_AdminID := adminID;
       conversationListParams_IntercomUserID := "";
       conversationListParams_UserID := "";
       conversationListParams_Email := "";
       conversationListParams_Open := None;
       conversationListParams_Unread := None;
       conversationListParams_DisplayAs := "";
       conversationListParams_Order := orderBy;
       conversationListParams_Sort := sort;
       conversationListParams_State := "" |} in
  let params :=
    if Z.eqb state SHOW_OPEN
    then conversationListParams_set_State "open"
           (conversationListParams_set_Open (Bool true) params)
    else params in
  let params :=
    if Z.eqb state SHOW_CLOSED
    then conversationListParams_set_State "closed"
           (conversationListParams_set_Open (Bool false) params)
    else params in
  ConversationRepository_list (ConversationService_Repository c) params.

(** List Conversations by User; [user.ID] panics on a nil [user]. *)
Definition ConversationService_ListByUser (c : ConversationService World)
    (user : ptr User) (state : ConversationListState)
    (pageParams : PageParams) : M World (ConversationList * error) :=
  u <- orPanic user ;;
  let params :=
    {| conversationListParams_PageParams := pageParams;
       conversationListParams_Type := "user";
       conversationListParams_AdminID := "";
       conversationListParams_IntercomUserID := User_ID u;
       conversationListParams_UserID := User_UserID u;
       conversationListParams_Email := User_Email u;
       conversationListParams_Open := None;
       conversationListParams_Unread := None;
       conversationListParams_DisplayAs := "";
       conversationListParams_Order := "";
       conversationListParams_Sort := "";
       conversationListParams_State := "" |} in
  let params :=
    if Z.eqb state SHOW_UNREAD
    then conversationListParams_set_Unread (Bool true) params
    else params in
  ConversationRepository_list (ConversationService_Repository c) params.

(** Find Conversation by conversation id *)
Definition ConversationService_Find (c : ConversationService World)
    (id : string) : M World (Conversation * error) :=
  ConversationRepository_find (ConversationService_Repository c) id.

(** Mark Conversation as read (by a User) *)
Definition ConversationService_MarkRead (c : ConversationService World)
    (id : string) : M World (Conversation * error) :=
  ConversationRepository_read (ConversationService_Repository c) id.

(** The shared builder of [Reply], [ReplyWithAttachmentURLs], [Open] and
    [Close] (lines 153-169). *)
Definition ConversationService_reply {A : Type} `{MessagePerson A}
    (c : ConversationService World) (id : string) (author : A)
    (replyType : ReplyType) (body : string) (attachmentURLs : list string)
    : M World (Conversation * error) :=
  addr <- orPanic (MessagePerson_MessageAddress author) ;;
  let reply :=
    {| Reply_Type := MessageAddress_Type addr;
       Reply_ReplyType := ReplyType_String replyType;
       Reply_Body := body;
       Reply_AssigneeID := "";
       Reply_AdminID := "";
       Reply_IntercomID := "";
       Reply_Email := "";
       Reply_UserID := "";
       Reply_AttachmentURLs := attachmentURLs |} in
  let reply :=
    if String.eqb (MessageAddress_Type addr) "admin"
    then Reply_set_AdminID (MessageAddress_ID addr) reply
    else Reply_set_Email (MessageAddress_Email addr)
           (Reply_set_UserID (MessageAddress_UserID addr)
              (Reply_set_IntercomID (MessageAddress_ID addr) reply)) in
  ConversationRepository_reply (ConversationService_Repository c) id reply.

Definition ConversationService_Reply {A : Type} `{MessagePerson A}
    (c : ConversationService World) (id : string) (author : A)
    (replyType : ReplyType) (body : string)
    : M World (Conversation * error) :=
  ConversationService_reply c id author replyType body [].

(** Reply to a Conversation by id *)
Definition ConversationService_ReplyWithAttachmentURLs {A : Type}
    `{MessagePerson A} (c : ConversationService World) (id : string)
    (author : A) (replyType : ReplyType) (body : string)
    (attachmentURLs : list string) : M World (Conversation * error) :=
  ConversationService_reply c id author replyType body attachmentURLs.

(** Assign a Conversation to an Admin *)
Definition ConversationService_Assign (c : ConversationService World)
    (id : string) (assigner assignee : ptr Admin)
    : M World (Conversation * error) :=
  assignerAddr <- orPanic (MessagePerson_MessageAddress assigner) ;;
  assigneeAddr <- orPanic (MessagePerson_MessageAddress assignee) ;;
  let reply :=
    {| Reply_Type := "admin";
       Reply_ReplyType := ReplyType_String CONVERSATION_ASSIGN;
       Reply_Body := "";
       Reply_AssigneeID := MessageAddress_ID assigneeAddr;
       Reply_AdminID := MessageAddress_ID assignerAddr;
       Reply_IntercomID := "";
       Reply_Email := "";
       Reply_UserID := "";
       Reply_AttachmentURLs := [] |} in
  ConversationRepository_reply (ConversationService_Repository c) id reply.

(** Open a Conversation (without a body) *)
Definition ConversationService_Open (c : ConversationService World)
    (id : string) (opener : ptr Admin) : M World (Conversation * error) :=
  ConversationService_reply c id opener CONVERSATION_OPEN "" [].

(** Close a Conversation (without a body) *)
Definition ConversationService_Close (c : ConversationService World)
    (id : string) (closer : ptr Admin) : M World (Conversation * error) :=
  ConversationService_reply c id closer CONVERSATION_CLOSE "" [].

(** What it is for a computation to be one call of the repository of
    [c], and nothing else: its value, its error and the world it leaves
    are those of that call. *)
Inductive repository_call (c : ConversationService World)
  : forall A : Type, M World (A * error) -> Prop :=
| call_list (params : conversationListParams) :
    repository_call c ConversationList
      (ConversationRepository_list (ConversationService_Repository c) params)
| call_find (id : string) :
    repository_call c Conversation
      (ConversationRepository_find (ConversationService_Repository c) id)
| call_read (id : string) :
    repository_call c Conversation
      (ConversationRepository_read (ConversationService_Repository c) id)
| call_reply (id : string) (reply : Reply) :
    repository_call c Conversation
      (ConversationRepository_reply (ConversationService_Repository c) id reply).
End Service.

Arguments repository_call {_ _} c {A} _.

(** ** A recording repository

    The repository is an interface, so the package's tests drive the
    service with a double.  This one appends every call it receives to the
    world, which is the log of calls, and answers with fixed results. *)

Section Recording.
Context `{Declarations}.

Inductive RepositoryCall : Type :=
| called_list (params : conversationListParams)
| called_find (id : string)
| called_read (id : string)
| called_reply (id : string) (reply : Reply).

Definition recordingRepository (l : ConversationList) (conv : Conversation)
    (err : error) : ConversationRepository (list RepositoryCall) :=
  {| ConversationRepository_list := fun params w =>
       Some ((l, err), (w ++ [called_list params])%list);
     ConversationRepository_find := fun id w =>
       Some ((conv, err), (w ++ [called_find id])%list);
     ConversationRepository_read := fun id w =>
       Some ((conv, err), (w ++ [called_read id])%list);
     ConversationRepository_reply := fun id reply w =>
       Some ((conv, err), (w ++ [called_reply id reply])%list) |}.

(** An outcome that is a failure of the operation's own making: an error
    comes back although the log [w] of calls received has not grown. *)
Definition fails_before_sending {A : Type} (w : list RepositoryCall)
    (out : option ((A * error) * list RepositoryCall)) : Prop :=
  exists (a : A) (msg : string), out = Some ((a, Some msg), w).
End Recording.

(** ** The declarations of the rest of the package, as the spec has them *)

(** Modelled from the spec: [Admin] is declared outside conversation.go;
    the spec gives it a single identifier, [admin.ID]. *)
Record AdminRecord : Type := {
  Admin_ID : string
}.

(** Modelled from the spec: [Admin.MessageAddress()] is declared outside
    conversation.go; "Admin variant -> {Type: admin, ID: admin.ID}". *)
Definition AdminRecord_MessageAddress (a : AdminRecord) : MessageAddress :=
  {| MessageAddress_Type := "admin";
     MessageAddress_ID := Admin_ID a;
     MessageAddress_Email := "";
     MessageAddress_UserID := "" |}.

(** Modelled from the spec: [User.MessageAddress()] is declared outside
    conversation.go; "User variant -> {Type: user, ID: user.InternalID,
    UserID: user.ExternalUserID, Email: user.Email}". *)
Definition User_MessageAddress (u : User) : MessageAddress :=
  {| MessageAddress_Type := "user";
     MessageAddress_ID := User_ID u;
     MessageAddress_Email := User_Email u;
     MessageAddress_UserID := User_UserID u |}.

#[export] Instance User_MessagePerson : MessagePerson User :=
  fun u => Some (User_MessageAddress u).

(** An address is a person that resolves to itself: a stand-in for any
    other implementation of the interface. *)
Definition MessageAddress_MessagePerson : MessagePerson MessageAddress :=
  fun addr => Some addr.

(** Modelled from the spec: the reply kinds are declared outside
    conversation.go; the spec lists comment, note, assignment, open and
    close, each sent as its own text. *)
Inductive ReplyKind : Type :=
| KindComment
| KindNote
| KindAssign
| KindOpen
| KindClose.

Definition ReplyKind_String (k : ReplyKind) : string :=
  match k with
  | KindComment => "comment"
  | KindNote => "note"
  | KindAssign => "assignment"
  | KindOpen => "open"
  | KindClose => "close"
  end.

(** Modelled from the spec: [PageParams] is declared outside
    conversation.go; "pagination cursor/size fields". *)
Record Pagination : Type := {
  Pagination_Page : Z;
  Pagination_PerPage : Z
}.

Definition specDeclarations : Declarations :=
  {| PageParams := Pagination;
     TagList := list string;
     Admin := AdminRecord;
     Admin_MessageAddress := AdminRecord_MessageAddress;
     ReplyType := ReplyKind;
     ReplyType_String := ReplyKind_String;
     CONVERSATION_ASSIGN := KindAssign;
     CONVERSATION_OPEN := KindOpen;
     CONVERSATION_CLOSE := KindClose |}.

(** A package in which [Admin.MessageAddress()] answers with a user-typed
    address: what [Assign] and [Open] do does not rest on the admin's
    address being admin-typed. *)
Definition oddDeclarations : Declarations :=
  {| PageParams := Pagination;
     TagList := list string;
     Admin := User;
     Admin_MessageAddress := User_MessageAddress;
     ReplyType := ReplyKind;
     ReplyType_String := ReplyKind_String;
     CONVERSATION_ASSIGN := KindAssign;
     CONVERSATION_OPEN := KindOpen;
     CONVERSATION_CLOSE := KindClose |}.

(** Go zero values of the results. *)
Section Package.
#[local] Existing Instance specDeclarations.

Definition zero_MessageAddress : MessageAddress :=
  {| MessageAddress_Type := ""; MessageAddress_ID := "";
     MessageAddress_Email := ""; MessageAddress_UserID := "" |}.

Definition zero_Conversation : Conversation :=
  {| Conversation_ID := "";
     Conversation_CreatedAt := 0%Z;
     Conversation_UpdatedAt := 0%Z;
     Conversation_User := {| User_ID := ""; User_UserID := ""; User_Email := "" |};
     Conversation_Assignee := {| Admin_ID := "" |};
     Conversation_Open := false;
     Conversation_Read := false;
     Conversation_ConversationMessage :=
       {| ConversationMessage_Subject := "";
          ConversationMessage_Body := "";
          ConversationMessage_Author := zero_MessageAddress;
          ConversationMessage_URL := "";
          ConversationMessage_Attachments := [] |};
     Conversation_ConversationParts := {| ConversationPartList_Parts := [] |};
     Conversation_TagList := None;
     Conversation_ConversationRating :=
       {| ConversationRating_Rating := 0%Z;
          ConversationRating_Remark := "";
          ConversationRating_CreatedAt := 0%Z;
          ConversationRating_Customer := {| Customer_Type := ""; Customer_ID := "" |};
          ConversationRating_Teammate := {| Teammate_Type := ""; Teammate_ID := "" |} |} |}.

Definition zero_ConversationList : ConversationList :=
  {| ConversationList_Pages := {| Pagination_Page := 0%Z; Pagination_PerPage := 0%Z |};
     ConversationList_Conversations := [] |}.

(** The service over a recording repository that answers with [err]. *)
Definition recordingService (err : error)
  : ConversationService (list RepositoryCall) :=
  {| ConversationService_Repository :=
       recordingRepository zero_ConversationList zero_Conversation err |}.

Definition adminX : Admin := {| Admin_ID := "adminX_id" |}.
Definition adminY : Admin := {| Admin_ID := "adminY_id" |}.
End Package.

Definition userY : User :=
  {| User_ID := "5f1"; User_UserID := "ext-42"; User_Email := "" |}.
Definition contactZ : MessageAddress :=
  {| MessageAddress_Type := "contact"; MessageAddress_ID := "c9";
     MessageAddress_Email := "c9@example.com"; MessageAddress_UserID := "" |}.
(** A package in which the party type of [Assign] has both variants of a
    message person, an admin and a user, each resolving as the spec has
    it: the one setting in which [Assign] can be handed a user. *)
Inductive Party : Type :=
| AdminParty (a : AdminRecord)
| UserParty (u : User).

Definition Party_MessageAddress (p : Party) : MessageAddress :=
  match p with
  | AdminParty a => AdminRecord_MessageAddress a
  | UserParty u => User_MessageAddress u
  end.

Definition variantDeclarations : Declarations :=
  {| PageParams := Pagination;
     TagList := list string;
     Admin := Party;
     Admin_MessageAddress := Party_MessageAddress;
     ReplyType := ReplyKind;
     ReplyType_String := ReplyKind_String;
     CONVERSATION_ASSIGN := KindAssign;
     CONVERSATION_OPEN := KindOpen;
     CONVERSATION_CLOSE := KindClose |}.

Section VariantPackage.
#[local] Existing Instance variantDeclarations.

Definition variant_zero_Conversation : Conversation :=
  {| Conversation_ID := "";
     Conversation_CreatedAt := 0%Z;
     Conversation_UpdatedAt := 0%Z;
     Conversation_User := {| User_ID := ""; User_UserID := ""; User_Email := "" |};
     Conversation_Assignee := AdminParty {| Admin_ID := "" |};
     Conversation_Open := false;
     Conversation_Read := false;
     Conversation_ConversationMessage :=
       {| ConversationMessage_Subject := "";
          ConversationMessage_Body := "";
          ConversationMessage_Author := zero_MessageAddress;
          ConversationMessage_URL := "";
          ConversationMessage_Attachments := [] |};
     Conversation_ConversationParts := {| ConversationPartList_Parts := [] |};
     Conversation_TagList := None;
     Conversation_ConversationRating :=
       {| ConversationRating_Rating := 0%Z;
          ConversationRating_Remark := "";
          ConversationRating_CreatedAt := 0%Z;
          ConversationRating_Customer := {| Customer_Type := ""; Customer_ID := "" |};
          ConversationRating_Teammate := {| Teammate_Type := ""; Teammate_ID := "" |} |} |}.

Definition variant_zero_ConversationList : ConversationList :=
  {| ConversationList_Pages := {| Pagination_Page := 0%Z; Pagination_PerPage := 0%Z |};
     ConversationList_Conversations := [] |}.

(** The service of that package over a recording repository. *)
Definition variantService (err : error)
  : ConversationService (list RepositoryCall) :=
  {| ConversationService_Repository :=
       recordingRepository variant_zero_ConversationList
         variant_zero_Conversation err |}.
End VariantPackage.

Definition page1 : Pagination :=
  {| Pagination_Page := 1%Z; Pagination_PerPage := 20%Z |}.

(** * Properties *)

Section Properties.
Context `{Declarations} {World : Type}.

Lemma bind_orPanic_Some {A B : Type} (a : A) (k : A -> M World B) :
  bind (orPanic (Some a)) k = k a.
Proof. reflexivity. Qed.

Lemma bind_orPanic_None {A B : Type} (k : A -> M World B) :
  bind (orPanic None) k = panic.
Proof. reflexivity. Qed.

(** A recording repository logs before it answers: none of its answers
    leaves the log as it was. *)
Lemma recording_never_silent (l : ConversationList) (conv conv' : Conversation)
    (err err' : error) (id : string) (reply : Reply)
    (w : list RepositoryCall) :
  ConversationRepository_reply (recordingRepository l conv err) id reply w =
  Some ((conv', err'), w) -> False.
Proof.
  simpl. intros Hout. injection Hout as _ _ Hlog.
  rewrite <- (app_nil_r w) in Hlog at 2.
  apply app_inv_head in Hlog. discriminate Hlog.
Qed.

(** What [reply] sends once the author's address is known: the payload of
    the admin branch when the address type is the string admin, the
    payload of the other branch otherwise. *)
Lemma reply_resolved {A : Type} `{MessagePerson A}
    (c : ConversationService World) (id : string) (author : A)
    (replyType : ReplyType) (body : string) (attachmentURLs : list string)
    (addr : MessageAddress) :
  MessagePerson_MessageAddress author = Some addr ->
  ConversationService_reply c id author replyType body attachmentURLs =
  ConversationRepository_reply (ConversationService_Repository c) id
    (if String.eqb (MessageAddress_Type addr) "admin"
     then {| Reply_Type := MessageAddress_Type addr;
             Reply_ReplyType := ReplyType_String replyType;
             Reply_Body := body;
             Reply_AssigneeID := "";
             Reply_AdminID := MessageAddress_ID addr;
             Reply_IntercomID := "";
             Reply_Email := "";
             Reply_UserID := "";
             Reply_AttachmentURLs := attachmentURLs |}
     else {| Reply_Type := MessageAddress_Type addr;
             Reply_ReplyType := ReplyType_String replyType;
             Reply_Body := body;
             Reply_AssigneeID := "";
             Reply_AdminID := "";
             Reply_IntercomID := MessageAddress_ID addr;
             Reply_Email := MessageAddress_Email addr;
             Reply_UserID := MessageAddress_UserID addr;
             Reply_AttachmentURLs := attachmentURLs |}).
Proof.
  intros Haddr. unfold ConversationService_reply.
  rewrite Haddr, bind_orPanic_Some.
  destruct (String.eqb (MessageAddress_Type addr) "admin"); reflexivity.
Qed.

Lemma reply_unresolved {A : Type} `{MessagePerson A}
    (c : ConversationService World) (id : string) (author : A)
    (replyType : ReplyType) (body : string) (attachmentURLs : list string) :
  MessagePerson_MessageAddress author = None ->
  ConversationService_reply c id author replyType body attachmentURLs = panic.
Proof.
  intros Haddr. unfold ConversationService_reply.
  rewrite Haddr. apply bind_orPanic_None.
Qed.

(** C1. Whatever the conversation id, author, reply kind, body and
    attachment list given to [ReplyWithAttachmentURLs] or [Reply]: when the
    author's resolved address has Type admin, the payload handed to the
    repository has Type admin, AdminID equal to the address's ID, and
    IntercomID, UserID and Email empty; when it has Type user, the payload
    has Type user, AdminID empty, and IntercomID, UserID and Email copied
    from the address. *)
Theorem reply_identity_fields {A : Type} `{MessagePerson A}
    (c : ConversationService World) (id : string) (author : A)
    (replyType : ReplyType) (body : string) (attachmentURLs : list string)
    (addr : MessageAddress) :
  MessagePerson_MessageAddress author = Some addr ->
  (MessageAddress_Type addr = "admin" ->
     ConversationService_ReplyWithAttachmentURLs
       c id author replyType body attachmentURLs =
     ConversationRepository_reply (ConversationService_Repository c) id
       {| Reply_Type := "admin";
          Reply_ReplyType := ReplyType_String replyType;
          Reply_Body := body;
          Reply_AssigneeID := "";
          Reply_AdminID := MessageAddress_ID addr;
          Reply_IntercomID := "";
          Reply_Email := "";
          Reply_UserID := "";
          Reply_AttachmentURLs := attachmentURLs |}
     /\
     ConversationService_Reply c id author replyType body =
     ConversationRepository_reply (ConversationService_Repository c) id
       {| Reply_Type := "admin";
          Reply_ReplyType := ReplyType_String replyType;
          Reply_Body := body;
          Reply_AssigneeID := "";
          Reply_AdminID := MessageAddress_ID addr;
          Reply_IntercomID := "";
          Reply_Email := "";
          Reply_UserID := "";
          Reply_AttachmentURLs := [] |})
  /\
  (MessageAddress_Type addr = "user" ->
     ConversationService_ReplyWithAttachmentURLs
       c id author replyType body attachmentURLs =
     ConversationRepository_reply (ConversationService_Repository c) id
       {| Reply_Type := "user";
          Reply_ReplyType := ReplyType_String replyType;
          Reply_Body := body;
          Reply_AssigneeID := "";
          Reply_AdminID := "";
          Reply_IntercomID := MessageAddress_ID addr;
          Reply_Email := MessageAddress_Email addr;
          Reply_UserID := MessageAddress_UserID addr;
          Reply_AttachmentURLs := attachmentURLs |}
     /\
     ConversationService_Reply c id author replyType body =
     ConversationRepository_reply (ConversationService_Repository c) id
       {| Reply_Type := "user";
          Reply_ReplyType := ReplyType_String replyType;
          Reply_Body := body;
          Reply_AssigneeID := "";
          Reply_AdminID := "";
          Reply_IntercomID := MessageAddress_ID addr;
          Reply_Email := MessageAddress_Email addr;
          Reply_UserID := MessageAddress_UserID addr;
          Reply_AttachmentURLs := [] |}).
Proof.
  intros Haddr.
  unfold ConversationService_ReplyWithAttachmentURLs, ConversationService_Reply.
  split; intros Hty; split;
    rewrite (reply_resolved _ _ _ _ _ _ _ Haddr), Hty; reflexivity.
Qed.

(** C10. The builder compares the address type with the exact string
    admin: for an author whose resolved address has any other Type, the
    empty string and unknown tags included, it fills IntercomID, UserID
    and Email from the address, leaves AdminID empty, and still copies the
    address's Type into the payload. *)
Theorem reply_other_type_takes_user_branch {A : Type} `{MessagePerson A}
    (c : ConversationService World) (id : string) (author : A)
    (replyType : ReplyType) (body : string) (attachmentURLs : list string)
    (addr : MessageAddress) :
  MessagePerson_MessageAddress author = Some addr ->
  MessageAddress_Type addr <> "admin" ->
  ConversationService_reply c id author replyType body attachmentURLs =
  ConversationRepository_reply (ConversationService_Repository c) id
    {| Reply_Type := MessageAddress_Type addr;
       Reply_ReplyType := ReplyType_String replyType;
       Reply_Body := body;
       Reply_AssigneeID := "";
       Reply_AdminID := "";
       Reply_IntercomID := MessageAddress_ID addr;
       Reply_Email := MessageAddress_Email addr;
       Reply_UserID := MessageAddress_UserID addr;
       Reply_AttachmentURLs := attachmentURLs |}.
Proof.
  intros Haddr Hty.
  rewrite (reply_resolved _ _ _ _ _ _ _ Haddr).
  apply String.eqb_neq in Hty. rewrite Hty. reflexivity.
Qed.

(** The builder either panics while resolving the author, or is one call
    of the repository's reply. *)
Lemma reply_panics_or_calls {A : Type} `{MessagePerson A}
    (c : ConversationService World) (id : string) (author : A)
    (replyType : ReplyType) (body : string) (attachmentURLs : list string) :
  ConversationService_reply c id author replyType body attachmentURLs = panic \/
  repository_call c
    (ConversationService_reply c id author replyType body attachmentURLs).
Proof.
  destruct (MessagePerson_MessageAddress author) as [addr |] eqn:Haddr.
  - right. rewrite (reply_resolved _ _ _ _ _ _ _ Haddr). apply call_reply.
  - left. apply reply_unresolved. exact Haddr.
Qed.

(** C2. [ListByAdmin] hands the repository list params with Type admin
    and with AdminID, Order, Sort and PageParams copied from its inputs;
    Open is true and State is open for SHOW_OPEN, Open is false and State
    is closed for SHOW_CLOSED, and both are unset for SHOW_ALL and for
    SHOW_UNREAD. *)
Theorem ListByAdmin_params (c : ConversationService World)
    (adminID orderBy sort : string) (pageParams : PageParams) :
  ConversationService_ListByAdmin c adminID orderBy sort SHOW_OPEN pageParams =
  ConversationRepository_list (ConversationService_Repository c)
    {| conversationListParams_PageParams := pageParams;
       conversationListParams_Type := "admin";
       conversationListParams_AdminID := adminID;
       conversationListParams_IntercomUserID := "";
       conversationListParams_UserID := "";
       conversationListParams_Email := "";
       conversationListParams_Open := Some true;
       conversationListParams_Unread := None;
       conversationListParams_DisplayAs := "";
       conversationListParams_Order := orderBy;
       conversationListParams_Sort := sort;
       conversationListParams_State := "open" |}
  /\
  ConversationService_ListByAdmin c adminID orderBy sort SHOW_CLOSED pageParams =
  ConversationRepository_list (ConversationService_Repository c)
    {| conversationListParams_PageParams := pageParams;
       conversationListParams_Type := "admin";
       conversationListParams_AdminID := adminID;
       conversationListParams_IntercomUserID := "";
       conversationListParams_UserID := "";
       conversationListParams_Email := "";
       conversationListParams_Open := Some false;
       conversationListParams_Unread := None;
       conversationListParams_DisplayAs := "";
       conversationListParams_Order := orderBy;
       conversationListParams_Sort := sort;
       conversationListParams_State := "closed" |}
  /\
  ConversationService_ListByAdmin c adminID orderBy sort SHOW_ALL pageParams =
  ConversationRepository_list (ConversationService_Repository c)
    {| conversationListParams_PageParams := pageParams;
       conversationListParams_Type := "admin";
       conversationListParams_AdminID := adminID;
       conversationListParams_IntercomUserID := "";
       conversationListParams_UserID := "";
       conversationListParams_Email := "";
       conversationListParams_Open := None;
       conversationListParams_Unread := None;
       conversationListParams_DisplayAs := "";
       conversationListParams_Order := orderBy;
       conversationListParams_Sort := sort;
       conversationListParams_State := "" |}
  /\
  ConversationService_ListByAdmin c adminID orderBy sort SHOW_UNREAD pageParams =
  ConversationRepository_list (ConversationService_Repository c)
    {| conversationListParams_PageParams := pageParams;
       conversationListParams_Type := "admin";
       conversationListParams_AdminID := adminID;
       conversationListParams_IntercomUserID := "";
       conversationListParams_UserID := "";
       conversationListParams_Email := "";
       conversationListParams_Open := None;
       conversationListParams_Unread := None;
       conversationListParams_DisplayAs := "";
       conversationListParams_Order := orderBy;
       conversationListParams_Sort := sort;
       conversationListParams_State := "" |}.
Proof. repeat split. Qed.

(** C3. [ListByUser] hands the repository list params with Type user and
    with IntercomUserID, UserID and Email copied from the user's ID,
    UserID and Email; Unread is true when the state is SHOW_UNREAD and
    unset for every other state. *)
Theorem ListByUser_params (c : ConversationService World) (user : User)
    (pageParams : PageParams) :
  ConversationService_ListByUser c (Some user) SHOW_UNREAD pageParams =
  ConversationRepository_list (ConversationService_Repository c)
    {| conversationListParams_PageParams := pageParams;
       conversationListParams_Type := "user";
       conversationListParams_AdminID := "";
       conversationListParams_IntercomUserID := User_ID user;
       conversationListParams_UserID := User_UserID user;
       conversationListParams_Email := User_Email user;
       conversationListParams_Open := None;
       conversationListParams_Unread := Some true;
       conversationListParams_DisplayAs := "";
       conversationListParams_Order := "";
       conversationListParams_Sort := "";
       conversationListParams_State := "" |}
  /\
  forall state : ConversationListState,
    state <> SHOW_UNREAD ->
    ConversationService_ListByUser c (Some user) state pageParams =
    ConversationRepository_list (ConversationService_Repository c)
      {| conversationListParams_PageParams := pageParams;
         conversationListParams_Type := "user";
         conversationListParams_AdminID := "";
         conversationListParams_IntercomUserID := User_ID user;
         conversationListParams_UserID := User_UserID user;
         conversationListParams_Email := User_Email user;
         conversationListParams_Open := None;
         conversationListParams_Unread := None;
         conversationListParams_DisplayAs := "";
         conversationListParams_Order := "";
         conversationListParams_Sort := "";
         conversationListParams_State := "" |}.
Proof.
  split; [reflexivity |].
  intros state Hstate. unfold ConversationService_ListByUser.
  rewrite bind_orPanic_Some.
  apply Z.eqb_neq in Hstate. rewrite Hstate. reflexivity.
Qed.

(** C4. For every conversation id and acting admin, [Open] and [Close]
    hand the repository a payload with an empty Body and no attachment
    URLs; its reply kind is the open kind for [Open] and the close kind
    for [Close]. *)
Theorem Open_Close_empty_body (opener closer : Admin) :
  exists reply_open reply_close : Reply,
    (Reply_Body reply_open = "" /\
     Reply_AttachmentURLs reply_open = [] /\
     Reply_ReplyType reply_open = ReplyType_String CONVERSATION_OPEN) /\
    (Reply_Body reply_close = "" /\
     Reply_AttachmentURLs reply_close = [] /\
     Reply_ReplyType reply_close = ReplyType_String CONVERSATION_CLOSE) /\
    forall (c : ConversationService World) (id : string),
      ConversationService_Open c id (Some opener) =
      ConversationRepository_reply (ConversationService_Repository c) id
        reply_open
      /\
      ConversationService_Close c id (Some closer) =
      ConversationRepository_reply (ConversationService_Repository c) id
        reply_close.
Proof.
  eexists. eexists.
  split; [| split; [| intros c id; split ]].
  3: { unfold ConversationService_Open.
       apply reply_resolved. reflexivity. }
  3: { unfold ConversationService_Close.
       apply reply_resolved. reflexivity. }
  - destruct (String.eqb _ _); repeat split.
  - destruct (String.eqb _ _); repeat split.
Qed.

(** C5. For every conversation id, assigner and assignee, [Assign] hands
    the repository's reply operation, with that id, a payload with Type
    admin, the assign reply kind, AdminID equal to the ID of the
    assigner's resolved address and AssigneeID equal to the ID of the
    assignee's resolved address. *)
Theorem Assign_payload (c : ConversationService World) (id : string)
    (assigner assignee : Admin) :
  ConversationService_Assign c id (Some assigner) (Some assignee) =
  ConversationRepository_reply (ConversationService_Repository c) id
    {| Reply_Type := "admin";
       Reply_ReplyType := ReplyType_String CONVERSATION_ASSIGN;
       Reply_Body := "";
       Reply_AssigneeID := MessageAddress_ID (Admin_MessageAddress assignee);
       Reply_AdminID := MessageAddress_ID (Admin_MessageAddress assigner);
       Reply_IntercomID := "";
       Reply_Email := "";
       Reply_UserID := "";
       Reply_AttachmentURLs := [] |}.
Proof. reflexivity. Qed.


(** C7. Every public operation either is exactly one call of the
    repository, so that the conversation or list, the error and the world
    it yields are the ones that call yields, or panics on a nil party
    before any call and yields no error at all.  The service makes no
    error of its own, wraps none and calls nothing twice. *)
Theorem errors_come_from_repository (c : ConversationService World) :
  (forall pageParams,
     repository_call c (ConversationService_ListAll c pageParams)) /\
  (forall adminID orderBy sort state pageParams,
     repository_call c
       (ConversationService_ListByAdmin c adminID orderBy sort state pageParams)) /\
  (forall user state pageParams,
     ConversationService_ListByUser c user state pageParams = panic \/
     repository_call c (ConversationService_ListByUser c user state pageParams)) /\
  (forall id, repository_call c (ConversationService_Find c id)) /\
  (forall id, repository_call c (ConversationService_MarkRead c id)) /\
  (forall (A : Type) (P : MessagePerson A) id (author : A) replyType body,
     ConversationService_Reply c id author replyType body = panic \/
     repository_call c (ConversationService_Reply c id author replyType body)) /\
  (forall (A : Type) (P : MessagePerson A) id (author : A) replyType body
          attachmentURLs,
     ConversationService_ReplyWithAttachmentURLs
       c id author replyType body attachmentURLs = panic \/
     repository_call c
       (ConversationService_ReplyWithAttachmentURLs
          c id author replyType body attachmentURLs)) /\
  (forall id assigner assignee,
     ConversationService_Assign c id assigner assignee = panic \/
     repository_call c (ConversationService_Assign c id assigner assignee)) /\
  (forall id opener,
     ConversationService_Open c id opener = panic \/
     repository_call c (ConversationService_Open c id opener)) /\
  (forall id closer,
     ConversationService_Close c id closer = panic \/
     repository_call c (ConversationService_Close c id closer)).
Proof.
  repeat apply conj.
  - intros. apply call_list.
  - intros. apply call_list.
  - intros [user |] state pageParams.
    + right. unfold ConversationService_ListByUser.
      rewrite bind_orPanic_Some. apply call_list.
    + left. reflexivity.
  - intros. apply call_find.
  - intros. apply call_read.
  - intros A P id author replyType body. apply reply_panics_or_calls.
  - intros A P id author replyType body attachmentURLs.
    apply reply_panics_or_calls.
  - intros id [assigner |] [assignee |].
    + right. apply call_reply.
    + left. reflexivity.
    + left. reflexivity.
    + left. reflexivity.
  - intros id opener. apply reply_panics_or_calls.
  - intros id closer. apply reply_panics_or_calls.
Qed.

(** C8. The payload is a function of the author's address, the reply
    kind, the body and the attachment URLs alone: one function [build]
    gives the payload of every invocation of the builder, whatever the
    service, the conversation id and the world, so two invocations with
    equal tuples send equal payloads.  The builder passes the world it is
    given to the repository and returns the world the repository leaves:
    it reads and writes nothing else. *)
Theorem reply_payload_deterministic :
  exists build : MessageAddress -> ReplyType -> string -> list string -> Reply,
    forall (A : Type) (P : MessagePerson A) (c : ConversationService World)
           (id : string) (author : A) (addr : MessageAddress)
           (replyType : ReplyType) (body : string)
           (attachmentURLs : list string),
      MessagePerson_MessageAddress author = Some addr ->
      ConversationService_reply c id author replyType body attachmentURLs =
      ConversationRepository_reply (ConversationService_Repository c) id
        (build addr replyType body attachmentURLs).
Proof.
  exists (fun addr replyType body attachmentURLs =>
    if String.eqb (MessageAddress_Type addr) "admin"
    then {| Reply_Type := MessageAddress_Type addr;
            Reply_ReplyType := ReplyType_String replyType;
            Reply_Body := body;
            Reply_AssigneeID := "";
            Reply_AdminID := MessageAddress_ID addr;
            Reply_IntercomID := "";
            Reply_Email := "";
            Reply_UserID := "";
            Reply_AttachmentURLs := attachmentURLs |}
    else {| Reply_Type := MessageAddress_Type addr;
            Reply_ReplyType := ReplyType_String replyType;
            Reply_Body := body;
            Reply_AssigneeID := "";
            Reply_AdminID := "";
            Reply_IntercomID := MessageAddress_ID addr;
            Reply_Email := MessageAddress_Email addr;
            Reply_UserID := MessageAddress_UserID addr;
            Reply_AttachmentURLs := attachmentURLs |}).
  intros A P c id author addr replyType body attachmentURLs Haddr.
  apply reply_resolved. exact Haddr.
Qed.

(** C9. Whatever the assigner, the assignee and the conversation id,
    the payload of [Assign] has Type admin, written as a constant and not
    taken from the assigner's resolved address, an empty Body, no
    attachment URLs and empty IntercomID, UserID and Email, and carries
    the assignee's ID in AssigneeID; the payloads of [Reply],
    [ReplyWithAttachmentURLs], [Open] and [Close], the other operations
    that send one, have an empty AssigneeID. *)
Theorem Assign_frame (assigner assignee : Admin) :
  (exists reply : Reply,
     (Reply_Type reply = "admin" /\
      Reply_Body reply = "" /\
      Reply_AttachmentURLs reply = [] /\
      Reply_IntercomID reply = "" /\
      Reply_UserID reply = "" /\
      Reply_Email reply = "" /\
      Reply_AssigneeID reply = MessageAddress_ID (Admin_MessageAddress assignee)) /\
     forall (c : ConversationService World) (id : string),
       ConversationService_Assign c id (Some assigner) (Some assignee) =
       ConversationRepository_reply (ConversationService_Repository c) id reply)
  /\
  (forall (A : Type) (P : MessagePerson A) (author : A) (addr : MessageAddress)
          (replyType : ReplyType) (body : string) (attachmentURLs : list string),
     MessagePerson_MessageAddress author = Some addr ->
     exists reply reply' : Reply,
       Reply_AssigneeID reply = "" /\
       Reply_AssigneeID reply' = "" /\
       forall (c : ConversationService World) (id : string),
         ConversationService_ReplyWithAttachmentURLs
           c id author replyType body attachmentURLs =
         ConversationRepository_reply (ConversationService_Repository c) id reply
         /\
         ConversationService_Reply c id author replyType body =
         ConversationRepository_reply (ConversationService_Repository c) id reply')
  /\
  (forall admin : Admin,
     exists reply_open reply_close : Reply,
       Reply_AssigneeID reply_open = "" /\
       Reply_AssigneeID reply_close = "" /\
       forall (c : ConversationService World) (id : string),
         ConversationService_Open c id (Some admin) =
         ConversationRepository_reply (ConversationService_Repository c) id
           reply_open
         /\
         ConversationService_Close c id (Some admin) =
         ConversationRepository_reply (ConversationService_Repository c) id
           reply_close).
Proof.
  split; [| split].
  - eexists. split; [| intros c id; reflexivity]. repeat split.
  - intros A P author addr replyType body attachmentURLs Haddr.
    eexists. eexists. split; [| split; [| intros c id; split ]].
    3: { unfold ConversationService_ReplyWithAttachmentURLs.
         apply reply_resolved. exact Haddr. }
    3: { unfold ConversationService_Reply.
         apply reply_resolved. exact Haddr. }
    + destruct (String.eqb _ _); reflexivity.
    + destruct (String.eqb _ _); reflexivity.
  - intros admin.
    eexists. eexists. split; [| split; [| intros c id; split ]].
    3: { unfold ConversationService_Open. apply reply_resolved. reflexivity. }
    3: { unfold ConversationService_Close. apply reply_resolved. reflexivity. }
    + destruct (String.eqb _ _); reflexivity.
    + destruct (String.eqb _ _); reflexivity.
Qed.

End Properties.

(** * The properties at concrete inputs *)

Section Witnesses.
#[local] Existing Instance specDeclarations.

(** [Reply("conv_1", adminX, comment, "hello")] reaches the repository as
    [reply("conv_1", {Type: admin, ReplyType: comment, AdminID: adminX_id,
    Body: hello})], and a user's reply carries the user's identifiers. *)
Lemma reply_identity_fields_witness :
  (MessagePerson_MessageAddress adminX = Some (AdminRecord_MessageAddress adminX) /\
   MessageAddress_Type (AdminRecord_MessageAddress adminX) = "admin" /\
   ConversationService_Reply (recordingService None) "conv_1" adminX
     KindComment "hello" [] =
   Some ((zero_Conversation, None),
         [called_reply "conv_1"
            {| Reply_Type := "admin";
               Reply_ReplyType := "comment";
               Reply_Body := "hello";
               Reply_AssigneeID := "";
               Reply_AdminID := "adminX_id";
               Reply_IntercomID := "";
               Reply_Email := "";
               Reply_UserID := "";
               Reply_AttachmentURLs := [] |}]))
  /\
  (MessagePerson_MessageAddress userY = Some (User_MessageAddress userY) /\
   MessageAddress_Type (User_MessageAddress userY) = "user" /\
   ConversationService_ReplyWithAttachmentURLs (recordingService None)
     "conv_1" userY KindComment "thanks" ["https://files.example/a.png"] [] =
   Some ((zero_Conversation, None),
         [called_reply "conv_1"
            {| Reply_Type := "user";
               Reply_ReplyType := "comment";
               Reply_Body := "thanks";
               Reply_AssigneeID := "";
               Reply_AdminID := "";
               Reply_IntercomID := "5f1";
               Reply_Email := "";
               Reply_UserID := "ext-42";
               Reply_AttachmentURLs := ["https://files.example/a.png"] |}])).
Proof.
  split.
  - split; [reflexivity | split; [reflexivity |]].
    rewrite (proj2 (proj1 (reply_identity_fields (recordingService None)
               "conv_1" adminX KindComment "hello" []
               (AdminRecord_MessageAddress adminX) eq_refl) eq_refl)).
    reflexivity.
  - split; [reflexivity | split; [reflexivity |]].
    rewrite (proj1 (proj2 (reply_identity_fields (recordingService None)
               "conv_1" userY KindComment "thanks"
               ["https://files.example/a.png"]
               (User_MessageAddress userY) eq_refl) eq_refl)).
    reflexivity.
Defined.

(** A contact-typed address takes the user branch and keeps its Type. *)
Lemma reply_other_type_witness :
  MessageAddress_MessagePerson contactZ = Some contactZ /\
  MessageAddress_Type contactZ <> "admin" /\
  ConversationService_reply (H0 := MessageAddress_MessagePerson)
    (recordingService None) "conv_3" contactZ KindNote "seen" [] [] =
  Some ((zero_Conversation, None),
        [called_reply "conv_3"
           {| Reply_Type := "contact";
              Reply_ReplyType := "note";
              Reply_Body := "seen";
              Reply_AssigneeID := "";
              Reply_AdminID := "";
              Reply_IntercomID := "c9";
              Reply_Email := "c9@example.com";
              Reply_UserID := "";
              Reply_AttachmentURLs := [] |}]).
Proof.
  assert (Hty : MessageAddress_Type contactZ <> "admin") by discriminate.
  split; [reflexivity | split; [exact Hty |]].
  rewrite (reply_other_type_takes_user_branch (H0 := MessageAddress_MessagePerson)
             (recordingService None) "conv_3" contactZ KindNote "seen" []
             contactZ eq_refl Hty).
  reflexivity.
Defined.

(** [ListByUser(userY, SHOW_UNREAD, page)] asks for the unread
    conversations of that user; with SHOW_OPEN the filter is left out. *)
Lemma ListByUser_params_witness :
  SHOW_OPEN <> SHOW_UNREAD /\
  ConversationService_ListByUser (recordingService None) (Some userY)
    SHOW_OPEN page1 [] =
  Some ((zero_ConversationList, None),
        [called_list
           {| conversationListParams_PageParams := page1;
              conversationListParams_Type := "user";
              conversationListParams_AdminID := "";
              conversationListParams_IntercomUserID := "5f1";
              conversationListParams_UserID := "ext-42";
              conversationListParams_Email := "";
              conversationListParams_Open := None;
              conversationListParams_Unread := None;
              conversationListParams_DisplayAs := "";
              conversationListParams_Order := "";
              conversationListParams_Sort := "";
              conversationListParams_State := "" |}]).
Proof.
  assert (Hstate : SHOW_OPEN <> SHOW_UNREAD) by discriminate.
  split; [exact Hstate |].
  rewrite (proj2 (ListByUser_params (recordingService None) userY page1)
             SHOW_OPEN Hstate).
  reflexivity.
Defined.


(** Two invocations that differ in the service, the conversation, the
    world and the author, but not in the tuple, send the same payload. *)
Lemma reply_payload_deterministic_witness :
  exists payload : Reply,
    ConversationService_reply (recordingService None) "conv_1" userY
      KindComment "hello" ["https://files.example/a.png"] [] =
    Some ((zero_Conversation, None), [called_reply "conv_1" payload])
    /\
    ConversationService_reply (H0 := MessageAddress_MessagePerson)
      (recordingService (Some "503")) "conv_2" (User_MessageAddress userY)
      KindComment "hello" ["https://files.example/a.png"]
      [called_find "conv_2"] =
    Some ((zero_Conversation, Some "503"),
          [called_find "conv_2"; called_reply "conv_2" payload]).
Proof.
  destruct (reply_payload_deterministic (World := list RepositoryCall))
    as [build Hbuild].
  exists (build (User_MessageAddress userY) KindComment "hello"
            ["https://files.example/a.png"]).
  split.
  - rewrite (Hbuild User User_MessagePerson (recordingService None) "conv_1"
               userY (User_MessageAddress userY) KindComment "hello"
               ["https://files.example/a.png"] eq_refl).
    reflexivity.
  - rewrite (Hbuild MessageAddress MessageAddress_MessagePerson
               (recordingService (Some "503")) "conv_2"
               (User_MessageAddress userY) (User_MessageAddress userY)
               KindComment "hello" ["https://files.example/a.png"] eq_refl).
    reflexivity.
Defined.

(** A user's reply carries no assignee. *)
Lemma Assign_frame_witness :
  MessagePerson_MessageAddress userY = Some (User_MessageAddress userY) /\
  exists reply reply' : Reply,
    Reply_AssigneeID reply = "" /\
    Reply_AssigneeID reply' = "" /\
    forall (c : ConversationService (list RepositoryCall)) (id : string),
      ConversationService_ReplyWithAttachmentURLs c id userY KindComment
        "thanks" ["https://files.example/a.png"] =
      ConversationRepository_reply (ConversationService_Repository c) id reply
      /\
      ConversationService_Reply c id userY KindComment "thanks" =
      ConversationRepository_reply (ConversationService_Repository c) id reply'.
Proof.
  split; [reflexivity |].
  apply (proj1 (proj2 (Assign_frame (World := list RepositoryCall)
                         adminX adminY))
           User User_MessagePerson userY (User_MessageAddress userY)
           KindComment "thanks" ["https://files.example/a.png"]).
  reflexivity.
Defined.

End Witnesses.

(** With declarations under which an admin resolves to a user-typed
    address, [Assign] still sends Type admin and fills AdminID. *)
Example Assign_type_is_constant {World : Type}
    (c : @ConversationService oddDeclarations World) (id : string) :
  MessageAddress_Type (@Admin_MessageAddress oddDeclarations userY) = "user" /\
  ConversationService_Assign c id (Some userY) (Some userY) =
  ConversationRepository_reply (ConversationService_Repository c) id
    {| Reply_Type := "admin";
       Reply_ReplyType := "assignment";
       Reply_Body := "";
       Reply_AssigneeID := "5f1";
       Reply_AdminID := "5f1";
       Reply_IntercomID := "";
       Reply_Email := "";
       Reply_UserID := "";
       Reply_AttachmentURLs := [] |}.
Proof. split; reflexivity. Qed.

(** The error of a failing repository comes back as it is, after one call. *)
Example Find_returns_repository_error :
  ConversationService_Find (recordingService (Some "404")) "conv_9" [] =
  Some ((zero_Conversation, Some "404"), [called_find "conv_9"]).
Proof. reflexivity. Qed.

(** A nil user makes [ListByUser] panic: no result comes back. *)
Example ListByUser_nil_panics :
  ConversationService_ListByUser (recordingService None) None SHOW_UNREAD
    page1 [] = None.
Proof. reflexivity. Qed.

(** * Further properties of the service *)

Section Further.
Context `{Declarations}.

(** The recording repository logs the arguments of reply: equal outcomes
    from one log mean equal conversation ids and equal payloads. *)
Lemma recording_reply_inv (l : ConversationList) (conv conv' : Conversation)
    (err err' : error) (id id' : string) (reply reply' : Reply)
    (w : list RepositoryCall) :
  ConversationRepository_reply (recordingRepository l conv err) id reply w =
  ConversationRepository_reply (recordingRepository l conv' err') id' reply' w ->
  id = id' /\ reply = reply'.
Proof.
  simpl. intros Hout.
  injection Hout as _ _ Hlog.
  apply app_inv_head in Hlog.
  injection Hlog as Hid Hreply. split; assumption.
Qed.

(** X1. [ListByAdmin] tests the state against SHOW_OPEN and SHOW_CLOSED
    only: for every other value of the int type, the named ones and the
    ones outside the enumeration alike, the params carry no Open and no
    State filter. *)
Theorem ListByAdmin_other_states {World : Type} (c : ConversationService World)
    (adminID orderBy sort : string) (state : ConversationListState)
    (pageParams : PageParams) :
  state <> SHOW_OPEN ->
  state <> SHOW_CLOSED ->
  ConversationService_ListByAdmin c adminID orderBy sort state pageParams =
  ConversationRepository_list (ConversationService_Repository c)
    {| conversationListParams_PageParams := pageParams;
       conversationListParams_Type := "admin";
       conversationListParams_AdminID := adminID;
       conversationListParams_IntercomUserID := "";
       conversationListParams_UserID := "";
       conversationListParams_Email := "";
       conversationListParams_Open := None;
       conversationListParams_Unread := None;
       conversationListParams_DisplayAs := "";
       conversationListParams_Order := orderBy;
       conversationListParams_Sort := sort;
       conversationListParams_State := "" |}.
Proof.
  intros Hopen Hclosed. unfold ConversationService_ListByAdmin.
  apply Z.eqb_neq in Hopen. apply Z.eqb_neq in Hclosed.
  rewrite Hopen, Hclosed. reflexivity.
Qed.


(** X3. The builder fills one identity slot at most: in the payload of
    every reply, whatever the author's address, AdminID is empty or
    IntercomID, UserID and Email are all empty. *)
Theorem reply_one_identity_slot {A : Type} `{MessagePerson A} (author : A)
    (addr : MessageAddress) (replyType : ReplyType) (body : string)
    (attachmentURLs : list string) :
  MessagePerson_MessageAddress author = Some addr ->
  exists reply : Reply,
    (Reply_AdminID reply = "" \/
     (Reply_IntercomID reply = "" /\ Reply_UserID reply = "" /\
      Reply_Email reply = "")) /\
    forall (World : Type) (c : ConversationService World) (id : string),
      ConversationService_reply c id author replyType body attachmentURLs =
      ConversationRepository_reply (ConversationService_Repository c) id reply.
Proof.
  intros Haddr. eexists. split.
  2: { intros World c id. apply reply_resolved. exact Haddr. }
  destruct (String.eqb _ _); simpl.
  - right. repeat split.
  - left. reflexivity.
Qed.

(** X4. When the acting admin resolves to an admin-typed address, [Open]
    and [Close] send exactly: Type admin, the open or close kind, the
    admin's resolved ID in AdminID and nothing else. *)
Theorem Open_Close_admin_payload {World : Type} (c : ConversationService World)
    (id : string) (admin : Admin) :
  MessageAddress_Type (Admin_MessageAddress admin) = "admin" ->
  ConversationService_Open c id (Some admin) =
  ConversationRepository_reply (ConversationService_Repository c) id
    {| Reply_Type := "admin";
       Reply_ReplyType := ReplyType_String CONVERSATION_OPEN;
       Reply_Body := "";
       Reply_AssigneeID := "";
       Reply_AdminID := MessageAddress_ID (Admin_MessageAddress admin);
       Reply_IntercomID := "";
       Reply_Email := "";
       Reply_UserID := "";
       Reply_AttachmentURLs := [] |}
  /\
  ConversationService_Close c id (Some admin) =
  ConversationRepository_reply (ConversationService_Repository c) id
    {| Reply_Type := "admin";
       Reply_ReplyType := ReplyType_String CONVERSATION_CLOSE;
       Reply_Body := "";
       Reply_AssigneeID := "";
       Reply_AdminID := MessageAddress_ID (Admin_MessageAddress admin);
       Reply_IntercomID := "";
       Reply_Email := "";
       Reply_UserID := "";
       Reply_AttachmentURLs := [] |}.
Proof.
  intros Hty.
  unfold ConversationService_Open, ConversationService_Close.
  split.
  - rewrite (reply_resolved c id (Some admin) CONVERSATION_OPEN "" []
               (Admin_MessageAddress admin) eq_refl).
    rewrite Hty. reflexivity.
  - rewrite (reply_resolved c id (Some admin) CONVERSATION_CLOSE "" []
               (Admin_MessageAddress admin) eq_refl).
    rewrite Hty. reflexivity.
Qed.

(** X6. For an assigner that resolves to an admin-typed address, the
    payload of [Assign] is the payload the builder makes for that admin
    with the assign kind, an empty body and no attachment, with AssigneeID
    set to the ID of the assignee's resolved address and every other field
    unchanged. *)
Theorem Assign_is_reply_plus_assignee (assigner assignee : Admin) :
  MessageAddress_Type (Admin_MessageAddress assigner) = "admin" ->
  exists built : Reply,
    (forall (World : Type) (c : ConversationService World) (id : string),
       ConversationService_reply c id (Some assigner) CONVERSATION_ASSIGN "" [] =
       ConversationRepository_reply (ConversationService_Repository c) id built)
    /\
    (forall (World : Type) (c : ConversationService World) (id : string),
       ConversationService_Assign c id (Some assigner) (Some assignee) =
       ConversationRepository_reply (ConversationService_Repository c) id
         {| Reply_Type := Reply_Type built;
            Reply_ReplyType := Reply_ReplyType built;
            Reply_Body := Reply_Body built;
            Reply_AssigneeID := MessageAddress_ID (Admin_MessageAddress assignee);
            Reply_AdminID := Reply_AdminID built;
            Reply_IntercomID := Reply_IntercomID built;
            Reply_Email := Reply_Email built;
            Reply_UserID := Reply_UserID built;
            Reply_AttachmentURLs := Reply_AttachmentURLs built |}).
Proof.
  intros Hty. eexists. split.
  - intros World c id.
    rewrite (reply_resolved c id (Some assigner) CONVERSATION_ASSIGN "" []
               (Admin_MessageAddress assigner) eq_refl).
    rewrite Hty. reflexivity.
  - intros World c id. simpl. reflexivity.
Qed.

(** X7. What the repository receives tells the replies apart: when two
    invocations of the builder, started on the same log, leave the same
    outcome in a recording repository, they had the same conversation id,
    body, attachment URLs and kind text, and their authors' addresses have
    the same Type and ID; when that Type is not admin the two addresses
    are equal in every field. *)
Theorem reply_payload_determines_author
    {A1 A2 : Type} (P1 : MessagePerson A1) (P2 : MessagePerson A2)
    (l : ConversationList) (conv : Conversation) (err : error)
    (id1 id2 : string) (author1 : A1) (author2 : A2)
    (addr1 addr2 : MessageAddress) (replyType1 replyType2 : ReplyType)
    (body1 body2 : string) (attachmentURLs1 attachmentURLs2 : list string)
    (w : list RepositoryCall) :
  MessagePerson_MessageAddress author1 = Some addr1 ->
  MessagePerson_MessageAddress author2 = Some addr2 ->
  ConversationService_reply
    {| ConversationService_Repository := recordingRepository l conv err |}
    id1 author1 replyType1 body1 attachmentURLs1 w =
  ConversationService_reply
    {| ConversationService_Repository := recordingRepository l conv err |}
    id2 author2 replyType2 body2 attachmentURLs2 w ->
  id1 = id2 /\
  body1 = body2 /\
  attachmentURLs1 = attachmentURLs2 /\
  ReplyType_String replyType1 = ReplyType_String replyType2 /\
  MessageAddress_Type addr1 = MessageAddress_Type addr2 /\
  MessageAddress_ID addr1 = MessageAddress_ID addr2 /\
  (MessageAddress_Type addr1 <> "admin" -> addr1 = addr2).
Proof.
  intros Haddr1 Haddr2 Hout.
  rewrite (reply_resolved _ _ _ _ _ _ _ Haddr1) in Hout.
  rewrite (reply_resolved _ _ _ _ _ _ _ Haddr2) in Hout.
  apply recording_reply_inv in Hout. destruct Hout as [Hid Hreply].
  destruct addr1 as [ty1 i1 e1 u1], addr2 as [ty2 i2 e2 u2]. simpl in *.
  destruct (String.eqb ty1 "admin") eqn:Hty1;
    destruct (String.eqb ty2 "admin") eqn:Hty2;
    injection Hreply as Hty Hkind Hbody; subst;
    try congruence.
  - repeat split; try assumption; try reflexivity.
    intros Hne. apply String.eqb_eq in Hty1. contradiction.
  - repeat split; try assumption; reflexivity.
Qed.

End Further.

(** * The further properties at concrete inputs *)

Section FurtherWitnesses.
#[local] Existing Instance specDeclarations.

(** A state outside the enumeration lists like SHOW_ALL. *)
Lemma ListByAdmin_other_states_witness :
  7%Z <> SHOW_OPEN /\
  7%Z <> SHOW_CLOSED /\
  ConversationService_ListByAdmin (recordingService None) "adminX_id"
    "updated_at" "desc" 7%Z page1 [] =
  Some ((zero_ConversationList, None),
        [called_list
           {| conversationListParams_PageParams := page1;
              conversationListParams_Type := "admin";
              conversationListParams_AdminID := "adminX_id";
              conversationListParams_IntercomUserID := "";
              conversationListParams_UserID := "";
              conversationListParams_Email := "";
              conversationListParams_Open := None;
              conversationListParams_Unread := None;
              conversationListParams_DisplayAs := "";
              conversationListParams_Order := "updated_at";
              conversationListParams_Sort := "desc";
              conversationListParams_State := "" |}]).
Proof.
  assert (Hopen : 7%Z <> SHOW_OPEN) by discriminate.
  assert (Hclosed : 7%Z <> SHOW_CLOSED) by discriminate.
  split; [exact Hopen | split; [exact Hclosed |]].
  rewrite (ListByAdmin_other_states (recordingService None) "adminX_id"
             "updated_at" "desc" 7%Z page1 Hopen Hclosed).
  reflexivity.
Defined.


(** A user's reply leaves AdminID empty. *)
Lemma reply_one_identity_slot_witness :
  MessagePerson_MessageAddress userY = Some (User_MessageAddress userY) /\
  exists reply : Reply,
    (Reply_AdminID reply = "" \/
     (Reply_IntercomID reply = "" /\ Reply_UserID reply = "" /\
      Reply_Email reply = "")) /\
    forall (World : Type) (c : ConversationService World) (id : string),
      ConversationService_reply c id userY KindComment "thanks" [] =
      ConversationRepository_reply (ConversationService_Repository c) id reply.
Proof.
  split; [reflexivity |].
  apply (reply_one_identity_slot (H := specDeclarations) userY
           (User_MessageAddress userY) KindComment "thanks" []).
  reflexivity.
Defined.

(** [Open("conv_1", adminX)] as the repository receives it. *)
Lemma Open_Close_admin_payload_witness :
  MessageAddress_Type (Admin_MessageAddress adminX) = "admin" /\
  ConversationService_Open (recordingService None) "conv_1" (Some adminX) [] =
  Some ((zero_Conversation, None),
        [called_reply "conv_1"
           {| Reply_Type := "admin";
              Reply_ReplyType := "open";
              Reply_Body := "";
              Reply_AssigneeID := "";
              Reply_AdminID := "adminX_id";
              Reply_IntercomID := "";
              Reply_Email := "";
              Reply_UserID := "";
              Reply_AttachmentURLs := [] |}]).
Proof.
  split; [reflexivity |].
  rewrite (proj1 (Open_Close_admin_payload (recordingService None) "conv_1"
                    adminX eq_refl)).
  reflexivity.
Defined.

(** [Assign("conv_1", adminX, adminY)] against the builder's payload. *)
Lemma Assign_is_reply_plus_assignee_witness :
  MessageAddress_Type (Admin_MessageAddress adminX) = "admin" /\
  exists built : Reply,
    ConversationService_reply (recordingService None) "conv_1" (Some adminX)
      CONVERSATION_ASSIGN "" [] [] =
    Some ((zero_Conversation, None), [called_reply "conv_1" built])
    /\
    ConversationService_Assign (recordingService None) "conv_1"
      (Some adminX) (Some adminY) [] =
    Some ((zero_Conversation, None),
          [called_reply "conv_1"
             {| Reply_Type := Reply_Type built;
                Reply_ReplyType := Reply_ReplyType built;
                Reply_Body := Reply_Body built;
                Reply_AssigneeID := "adminY_id";
                Reply_AdminID := Reply_AdminID built;
                Reply_IntercomID := Reply_IntercomID built;
                Reply_Email := Reply_Email built;
                Reply_UserID := Reply_UserID built;
                Reply_AttachmentURLs := Reply_AttachmentURLs built |}]).
Proof.
  split; [reflexivity |].
  destruct (Assign_is_reply_plus_assignee adminX adminY eq_refl)
    as [built [Hreply Hassign]].
  exists built. split.
  - rewrite (Hreply _ (recordingService None) "conv_1"). reflexivity.
  - rewrite (Hassign _ (recordingService None) "conv_1"). reflexivity.
Defined.

(** A user and the address the user resolves to, replying alike. *)
Lemma reply_payload_determines_author_witness :
  ConversationService_reply (recordingService None) "conv_1" userY
    KindComment "hello" [] [] =
  ConversationService_reply (H0 := MessageAddress_MessagePerson)
    (recordingService None) "conv_1" (User_MessageAddress userY)
    KindComment "hello" [] []
  /\
  ("conv_1" = "conv_1" /\
   "hello" = "hello" /\
   @nil string = [] /\
   ReplyType_String KindComment = ReplyType_String KindComment /\
   MessageAddress_Type (User_MessageAddress userY) =
   MessageAddress_Type (User_MessageAddress userY) /\
   MessageAddress_ID (User_MessageAddress userY) =
   MessageAddress_ID (User_MessageAddress userY) /\
   (MessageAddress_Type (User_MessageAddress userY) <> "admin" ->
    User_MessageAddress userY = User_MessageAddress userY)).
Proof.
  split; [reflexivity |].
  apply (reply_payload_determines_author (H := specDeclarations)
           User_MessagePerson
           MessageAddress_MessagePerson zero_ConversationList
           zero_Conversation None "conv_1" "conv_1" userY
           (User_MessageAddress userY) (User_MessageAddress userY)
           (User_MessageAddress userY) KindComment KindComment
           "hello" "hello" [] [] []).
  - reflexivity.
  - reflexivity.
  - reflexivity.
Defined.
End FurtherWitnesses.
